(** * create_icon.py: the icon writer

    A shallow embedding of the script [create_icon.py] and of the part of
    the Python runtime it runs on: text-mode file objects, the [with]
    statement and [print].

    The script has three statements after an unused [import os]:

    - the assignment of the string literal [svg_content];
    - [with open('appicon.svg', 'w') as f: f.write(svg_content)];
    - [print("Icon SVG created")].

    Statements are functions from the world to a result and a world.  The
    world holds the files by directory and name, the open file objects,
    the text given to standard output, and a trace of what happened.  What
    the operating system answers to the calls on the file belongs to the
    host, with the line separator and the locale's encoding: a run is
    determined by its host and its world.  The buffers between a file
    object and its file are left out: written bytes are in the file at
    once.

    The world of the first part is a directory where every name is a file
    of its own, seen by an interpreter with its default warning settings
    and a standard output that takes every line.  The part on the process
    drops these three: names denote files and several names may denote
    one, file objects have positions, the interpreter reads its warning
    settings from the environment, and [sys.stdout] may be missing or fail
    when it is flushed at the end of the process.  [layers_agree] relates
    the two.
*)

From Stdlib Require Import Strings.Ascii Strings.String Strings.Byte.
From stdpp Require Import gmap strings list fin_maps.

Local Open Scope string_scope.
Local Open Scope list_scope.

(** ** Python values used by the script *)

(** A Python [str] whose characters are code points below 256 is a Rocq
    [string]; the contents of a file are a [list byte]. *)
Abbreviation str := string (only parsing).

Definition LF : ascii := "010"%char.
Definition CR : ascii := "013"%char.
Definition DQUOTE : ascii := "034"%char.

(** [q s] is [s] between two double-quote characters. *)
Definition q (s : str) : str := String DQUOTE (s +:+ String DQUOTE EmptyString).

(** [join_lines] puts one line feed between consecutive lines and none
    after the last one, as the lines of a triple-quoted literal are laid
    out when the closing quotes follow the last line directly. *)
Definition join_lines (ls : list str) : str :=
  String.concat (String LF EmptyString) ls.

(** Lines 4 to 14 of the script, one entry per source line. *)
Definition svg_lines : list str :=
  [ "<?xml version=" +:+ q "1.0" +:+ " encoding=" +:+ q "UTF-8" +:+ "?>";
    "<svg width=" +:+ q "1024" +:+ " height=" +:+ q "1024"
      +:+ " viewBox=" +:+ q "0 0 1024 1024"
      +:+ " xmlns=" +:+ q "http://www.w3.org/2000/svg" +:+ ">";
    "  <defs>";
    "    <linearGradient id=" +:+ q "grad" +:+ " x1=" +:+ q "0%"
      +:+ " y1=" +:+ q "0%" +:+ " x2=" +:+ q "100%" +:+ " y2=" +:+ q "100%" +:+ ">";
    "      <stop offset=" +:+ q "0%" +:+ " style="
      +:+ q "stop-color:#0088cc;stop-opacity:1" +:+ " />";
    "      <stop offset=" +:+ q "100%" +:+ " style="
      +:+ q "stop-color:#00a8ff;stop-opacity:1" +:+ " />";
    "    </linearGradient>";
    "  </defs>";
    "  <rect width=" +:+ q "1024" +:+ " height=" +:+ q "1024"
      +:+ " rx=" +:+ q "230" +:+ " fill=" +:+ q "url(#grad)" +:+ "/>";
    "  <path d="
      +:+ q "M512 256 L768 512 L512 768 L512 600 L256 600 L256 424 L512 424 Z"
      +:+ " fill=" +:+ q "white" +:+ " transform=" +:+ q "translate(0, 50)" +:+ "/>";
    "</svg>" ].

Definition svg_content : str := Eval vm_compute in join_lines svg_lines.

(** The argument of [print]. *)
Definition confirmation : str := "Icon SVG created".

(** The file name given to [open]. *)
Definition icon_name : str := "appicon.svg".

(** ** The host the script runs on *)

(** The value of [os.linesep]. *)
Inductive newline : Type := NL_LF | NL_CRLF.

Definition linesep_str (n : newline) : str :=
  match n with
  | NL_LF => String LF EmptyString
  | NL_CRLF => String CR (String LF EmptyString)
  end.

(** The bytes an encoding has for a character beyond ASCII; [None] when it
    has none. *)
Definition codec : Type := ascii -> option (list byte).

Definition utf_8 : codec := fun c =>
  let n := N_of_ascii c in
  match Byte.of_N (192 + n / 64), Byte.of_N (128 + n mod 64) with
  | Some hi, Some lo => Some [hi; lo]
  | _, _ => None
  end.

Definition us_ascii : codec := fun _ => None.

(** What the operating system answers to a call it refuses: the error
    number, and for a write the number of bytes it took before failing. *)
Record fault : Type := { errno : nat; accepted : nat }.

(** [open(..., 'w')] names neither [encoding] nor [newline]: the file object
    takes the locale's encoding and writes each line feed as [os.linesep].
    [fault_at n] is the answer of the operating system to the [n]-th call
    on a file, [None] when the call goes through. *)
Record host : Type := {
  linesep : newline;
  encoding : codec;
  fault_at : nat -> option fault
}.

(** ** Text layer of a file object opened in text mode *)

Fixpoint translate_newlines (sep : str) (s : str) : str :=
  match s with
  | EmptyString => EmptyString
  | String c s' =>
      if Ascii.eqb c LF then sep +:+ translate_newlines sep s'
      else String c (translate_newlines sep s')
  end.

Definition is_ascii (c : ascii) : bool := (N_of_ascii c <? 128)%N.

(** A locale's encoding writes an ASCII character as its one byte; the
    encodings differ beyond ASCII. *)
Definition encode_char (enc : codec) (c : ascii) : option (list byte) :=
  if is_ascii c then Some [byte_of_ascii c] else enc c.

Fixpoint encode_str (enc : codec) (s : str) : option (list byte) :=
  match s with
  | EmptyString => Some []
  | String c s' =>
      match encode_char enc c, encode_str enc s' with
      | Some b, Some bs => Some (b ++ bs)
      | _, _ => None
      end
  end.

Definition text_to_bytes (h : host) (s : str) : option (list byte) :=
  encode_str (encoding h) (translate_newlines (linesep_str (linesep h)) s).

(** ** The world: arguments, environment, directory entries, open file
    objects, standard output *)

Inductive event : Type :=
  | EOpen (f : nat) (p : string * string) (* created or emptied, now open *)
  | EWrite (f : nat) (data : list byte)   (* bytes that reached the file *)
  | EClose (f : nat)                      (* file object released *)
  | EPrint (line : str).                  (* line given to standard output *)

(** A file is named by its directory and its name in it.  [clock] counts
    the calls made on files, [trace] lists what happened, oldest first. *)
Record world : Type := {
  argv : list str;
  environ : gmap string string;
  cwd : string;
  files : gmap (string * string) (list byte);
  handles : gmap nat (string * string);
  stdout : str;
  clock : nat;
  trace : list event
}.

(** ** Exceptions and the monad of statements *)

Inductive exn : Type :=
  | OSError (e : nat)
  | ValueError
  | UnicodeEncodeError
  | EncodingWarning.

Inductive outcome (A : Type) : Type :=
  | Ret (a : A)
  | Raise (e : exn).
Arguments Ret {A} a.
Arguments Raise {A} e.

Definition py (A : Type) : Type := world -> outcome A * world.

Definition py_ret {A} (a : A) : py A := fun w => (Ret a, w).

Definition py_bind {A B} (m : py A) (k : A -> py B) : py B := fun w =>
  match m w with
  | (Ret a, w') => k a w'
  | (Raise e, w') => (Raise e, w')
  end.

#[global] Instance py_mret : MRet py := @py_ret.
#[global] Instance py_mbind : MBind py := fun A B k m => py_bind m k.

(** The status the script leaves to the interpreter: 1 for an exception
    nobody handles.  What the process exits with is decided at its end,
    see [at_exit]. *)
Definition exit_status {A} (r : outcome A) : nat :=
  match r with
  | Ret _ => 0
  | Raise _ => 1
  end.

(** ** File objects, [with] and [print] *)

Section Runtime.
Variable h : host.

(** [open(name, 'w')]: the file [name] of the current directory is created,
    or emptied when it is there, and a new file object writes to it.  A
    refused call raises [OSError] and changes no file. *)
Definition open_w (name : str) : py nat := fun w =>
  match fault_at h (clock w) with
  | Some ft =>
      (Raise (OSError (errno ft)),
       {| argv := argv w; environ := environ w; cwd := cwd w;
          files := files w; handles := handles w; stdout := stdout w;
          clock := S (clock w); trace := trace w |})
  | None =>
      let f := fresh (dom (handles w)) in
      let p := (cwd w, name) in
      (Ret f,
       {| argv := argv w; environ := environ w; cwd := cwd w;
          files := <[p := []]> (files w); handles := <[f := p]> (handles w);
          stdout := stdout w; clock := S (clock w);
          trace := trace w ++ [EOpen f p] |})
  end.

(** The bytes [data] go to the end of the file behind [f]. *)
Definition append_file (f : nat) (p : string * string) (data : list byte)
    (w : world) : world :=
  {| argv := argv w; environ := environ w; cwd := cwd w;
     files := <[p := default [] (files w !! p) ++ data]> (files w);
     handles := handles w; stdout := stdout w; clock := S (clock w);
     trace := trace w ++ [EWrite f data] |}.

(** [f.write(s)]: a closed file object raises [ValueError]; text the
    encoding cannot express raises [UnicodeEncodeError]; a refused call
    raises [OSError] after the bytes the system took.  The value is the
    number of characters of [s], which the script drops. *)
Definition file_write (f : nat) (s : str) : py nat := fun w =>
  match handles w !! f with
  | None => (Raise ValueError, w)
  | Some p =>
      match text_to_bytes h s with
      | None => (Raise UnicodeEncodeError, w)
      | Some data =>
          match fault_at h (clock w) with
          | None => (Ret (String.length s), append_file f p data w)
          | Some ft =>
              (Raise (OSError (errno ft)),
               append_file f p (take (accepted ft) data) w)
          end
      end
  end.

(** [f.close()]: nothing on a closed file object; otherwise the file object
    is released, also when the call reports an error. *)
Definition file_close (f : nat) : py unit := fun w =>
  match handles w !! f with
  | None => (Ret tt, w)
  | Some _ =>
      let w' :=
        {| argv := argv w; environ := environ w; cwd := cwd w;
           files := files w; handles := delete f (handles w);
           stdout := stdout w; clock := S (clock w);
           trace := trace w ++ [EClose f] |} in
      match fault_at h (clock w) with
      | None => (Ret tt, w')
      | Some ft => (Raise (OSError (errno ft)), w')
      end
  end.

(** [with opening as f: body]: the file object's [__exit__] closes it on
    the way out of the body, whether the body returned or raised, and
    handles no exception; an exception of the closing replaces the one of
    the body. *)
Definition with_file {A} (opening : py nat) (body : nat -> py A) : py A :=
  fun w =>
    match opening w with
    | (Raise e, w1) => (Raise e, w1)
    | (Ret f, w1) =>
        match body f w1 with
        | (Ret a, w2) =>
            match file_close f w2 with
            | (Ret _, w3) => (Ret a, w3)
            | (Raise e, w3) => (Raise e, w3)
            end
        | (Raise e, w2) =>
            match file_close f w2 with
            | (Ret _, w3) => (Raise e, w3)
            | (Raise e', w3) => (Raise e', w3)
            end
        end
    end.

(** [print(s)]: [s] and a line feed go to standard output. *)
Definition print (s : str) : py unit := fun w =>
  (Ret tt,
   {| argv := argv w; environ := environ w; cwd := cwd w;
      files := files w; handles := handles w;
      stdout := stdout w +:+ s +:+ String LF EmptyString;
      clock := clock w; trace := trace w ++ [EPrint s] |}).

(** ** The script *)

(** Lines 16 and 17. *)
Definition with_block : py nat :=
  with_file (open_w icon_name) (fun f => file_write f svg_content).

(** The whole script; [import os] binds a name the script never uses. *)
Definition create_icon : py unit :=
  with_block ;; print confirmation.

End Runtime.

(** ** Concrete hosts and worlds *)

Definition no_fault : nat -> option fault := fun _ => None.

(** A POSIX system with a UTF-8 locale where every call goes through. *)
Definition posix : host :=
  {| linesep := NL_LF; encoding := utf_8; fault_at := no_fault |}.

(** Windows, where [os.linesep] is a carriage return and a line feed. *)
Definition windows : host :=
  {| linesep := NL_CRLF; encoding := utf_8; fault_at := no_fault |}.

(** The [n]-th call on a file is refused with error [e] after [k] bytes. *)
Definition refuse (n e k : nat) : nat -> option fault := fun i =>
  if Nat.eqb i n then Some {| errno := e; accepted := k |} else None.

Definition EACCES : nat := 13.
Definition ENOSPC : nat := 28.
Definition EIO : nat := 5.

(** POSIX hosts on which the opening, the writing or the closing fails. *)
Definition posix_readonly : host :=
  {| linesep := NL_LF; encoding := utf_8; fault_at := refuse 0 EACCES 0 |}.
Definition posix_disk_full : host :=
  {| linesep := NL_LF; encoding := utf_8; fault_at := refuse 1 ENOSPC 100 |}.
Definition posix_close_error : host :=
  {| linesep := NL_LF; encoding := us_ascii; fault_at := refuse 2 EIO 0 |}.

(** A directory without the file, nothing open, nothing printed. *)
Definition clean_world : world :=
  {| argv := ["create_icon.py"]; environ := ∅;
     cwd := "/work"; files := ∅; handles := ∅; stdout := EmptyString;
     clock := 0; trace := [] |}.


(** A directory where [appicon.svg] and another file are there already,
    with one file object open on the other file. *)
Definition used_world : world :=
  {| argv := ["create_icon.py"; "--size"; "512"];
     environ := <["LANG" := "C.UTF-8"]> ∅;
     cwd := "/work";
     files := <[("/work", "appicon.svg") := [x6f; x6c; x64]]>
                (<[("/work", "notes.txt") := [x68; x69]]> ∅);
     handles := <[0 := ("/work", "notes.txt")]> ∅;
     stdout := "earlier output" +:+ String LF EmptyString;
     clock := 7; trace := [EPrint "earlier output"] |}.

(** ** Observations on runs *)

Fixpoint ascii_text (s : str) : bool :=
  match s with
  | EmptyString => true
  | String c s' => is_ascii c && ascii_text s'
  end.

(** The bytes of the literal once its line feeds are written as the host's
    line separator, one byte per character. *)
Definition icon_bytes (n : newline) : list byte :=
  list_byte_of_string (translate_newlines (linesep_str n) svg_content).

(** The UTF-8 encoding of the literal itself. *)
Definition svg_utf8 : option (list byte) := encode_str utf_8 svg_content.

(** The file the script writes and the file object it gets. *)
Definition icon_path (w : world) : string * string := (cwd w, icon_name).
Definition icon_file (w : world) : nat := fresh (dom (handles w)).

(** The world after a run: [content] is what the file holds when the run
    got as far as opening it, [said] tells whether the confirmation was
    printed, [calls] counts the calls on the file, [evs] are the events. *)
Definition world_after (w : world) (content : option (list byte))
    (said : bool) (calls : nat) (evs : list event) : world :=
  {| argv := argv w; environ := environ w; cwd := cwd w;
     files := match content with
              | Some d => <[icon_path w := d]> (files w)
              | None => files w
              end;
     handles := handles w;
     stdout := if said
               then stdout w +:+ confirmation +:+ String LF EmptyString
               else stdout w;
     clock := calls + clock w;
     trace := trace w ++ evs |}.

(** The result once the closing had its say. *)
Definition closing {A} (r : outcome A) (c : option fault) : outcome A :=
  match c with
  | None => r
  | Some ft => Raise (OSError (errno ft))
  end.

(** The runs of the [with] statement, by what the operating system answers
    to the opening, the writing and the closing. *)
Definition with_block_cases (h : host) (w : world) : outcome nat * world :=
  let p := icon_path w in
  let f := icon_file w in
  let data := icon_bytes (linesep h) in
  match fault_at h (clock w) with
  | Some ft => (Raise (OSError (errno ft)), world_after w None false 1 [])
  | None =>
      match fault_at h (S (clock w)) with
      | Some ft =>
          (closing (Raise (OSError (errno ft))) (fault_at h (S (S (clock w)))),
           world_after w (Some (take (accepted ft) data)) false 3
             [EOpen f p; EWrite f (take (accepted ft) data); EClose f])
      | None =>
          (closing (Ret (String.length svg_content)) (fault_at h (S (S (clock w)))),
           world_after w (Some data) false 3
             [EOpen f p; EWrite f data; EClose f])
      end
  end.

(** The runs of the script. *)
Definition create_icon_cases (h : host) (w : world) : outcome unit * world :=
  let p := icon_path w in
  let f := icon_file w in
  let data := icon_bytes (linesep h) in
  match fault_at h (clock w) with
  | Some ft => (Raise (OSError (errno ft)), world_after w None false 1 [])
  | None =>
      match fault_at h (S (clock w)) with
      | Some ft =>
          (closing (Raise (OSError (errno ft))) (fault_at h (S (S (clock w)))),
           world_after w (Some (take (accepted ft) data)) false 3
             [EOpen f p; EWrite f (take (accepted ft) data); EClose f])
      | None =>
          match fault_at h (S (S (clock w))) with
          | Some ft =>
              (Raise (OSError (errno ft)),
               world_after w (Some data) false 3
                 [EOpen f p; EWrite f data; EClose f])
          | None =>
              (Ret tt,
               world_after w (Some data) true 3
                 [EOpen f p; EWrite f data; EClose f; EPrint confirmation])
          end
      end
  end.

(** The lines given to [print], in order. *)
Definition printed (t : list event) : list str :=
  omap (fun e => match e with EPrint s => Some s | _ => None end) t.

(** The events a run adds to the trace. *)
Definition script_events (h : host) (w : world) : list event :=
  drop (length (trace w)) (trace (snd (create_icon h w))).

(** ** Reading a text back: root element and substrings *)

Definition is_space (c : ascii) : bool :=
  Ascii.eqb c " " || Ascii.eqb c LF || Ascii.eqb c CR || Ascii.eqb c "009".

Fixpoint skip_spaces (s : str) : str :=
  match s with
  | String c s' => if is_space c then skip_spaces s' else s
  | EmptyString => s
  end.

(** [span stop s] cuts [s] before its first character in [stop]. *)
Fixpoint span (stop : ascii -> bool) (s : str) : str * str :=
  match s with
  | EmptyString => (EmptyString, EmptyString)
  | String c s' =>
      if stop c then (EmptyString, s)
      else let (a, b) := span stop s' in (String c a, b)
  end.

(** [after pat s] is what follows the first occurrence of [pat] in [s]. *)
Fixpoint after (pat : str) (s : str) : option str :=
  if String.prefix pat s
  then Some (String.substring (String.length pat) (String.length s) s)
  else match s with
       | EmptyString => None
       | String _ s' => after pat s'
       end.

Definition contains (pat : str) (s : str) : bool :=
  match after pat s with Some _ => true | None => false end.

(** The attributes [name="value"] of a start tag, up to its [>] or [/>]. *)
Fixpoint attributes (fuel : nat) (s : str) : option (list (str * str)) :=
  match fuel with
  | 0 => None
  | S fuel' =>
      match skip_spaces s with
      | EmptyString => None
      | String c rest =>
          if Ascii.eqb c ">" || Ascii.eqb c "/" then Some []
          else
            let (name, r) := span (fun x => Ascii.eqb x "=") (String c rest) in
            match r with
            | String _ (String quote r') =>
                if Ascii.eqb quote DQUOTE || Ascii.eqb quote "'" then
                  let (value, r'') := span (fun x => Ascii.eqb x quote) r' in
                  match r'' with
                  | String _ more =>
                      match attributes fuel' more with
                      | Some l => Some ((name, value) :: l)
                      | None => None
                      end
                  | EmptyString => None
                  end
                else None
            | _ => None
            end
      end
  end.

(** The root element of a document: its name and attributes, after an
    optional XML declaration. *)
Definition root_element (s : str) : option (str * list (str * str)) :=
  let s1 := skip_spaces s in
  let s2 := if String.prefix "<?" s1 then after "?>" s1 else Some s1 in
  match s2 with
  | None => None
  | Some body =>
      match skip_spaces body with
      | String c rest =>
          if Ascii.eqb c "<" then
            let (name, r) :=
              span (fun x => is_space x || Ascii.eqb x ">" || Ascii.eqb x "/") rest in
            match attributes (S (String.length r)) r with
            | Some l => Some (name, l)
            | None => None
            end
          else None
      | EmptyString => None
      end
  end.

(** The text of a file, one character per byte. *)
Definition file_text (data : list byte) : str := string_of_list_byte data.

Definition svg_attributes : list (str * str) :=
  [("width", "1024"); ("height", "1024"); ("viewBox", "0 0 1024 1024");
   ("xmlns", "http://www.w3.org/2000/svg")].

Definition path_data : str :=
  "M512 256 L768 512 L512 768 L512 600 L256 600 L256 424 L512 424 Z".

(** ** Several runs, and more hosts and worlds *)

(** The number of line feeds of a text. *)
Fixpoint count_lf (s : str) : nat :=
  match s with
  | EmptyString => 0
  | String c s' => (if Ascii.eqb c LF then 1 else 0) + count_lf s'
  end.



(** A POSIX host on which the writing is refused after 100 bytes and the
    closing is refused too. *)
Definition posix_write_close_error : host :=
  {| linesep := NL_LF; encoding := utf_8;
     fault_at := fun i =>
       if Nat.eqb i 1 then Some {| errno := ENOSPC; accepted := 100 |}
       else if Nat.eqb i 2 then Some {| errno := EIO; accepted := 0 |}
       else None |}.

(** A directory that holds an earlier [appicon.svg], seen by a process
    that has made no call on a file yet. *)
Definition old_icon_world : world :=
  {| argv := ["create_icon.py"]; environ := ∅; cwd := "/work";
     files := <[("/work", "appicon.svg") := [x6f; x6c; x64]]> ∅;
     handles := ∅; stdout := EmptyString; clock := 0; trace := [] |}.

(** A body of a [with] statement that raises at once, and one that closes
    the file object itself. *)
Definition raising_body : nat -> py nat := fun _ w => (Raise ValueError, w).
Definition closing_body (h : host) : nat -> py unit := fun f => file_close h f.

(** ** The process: links, the interpreter's warnings, standard output *)

(** [sys.stdout]: a stream that takes what is flushed to it, a stream whose
    flush fails (a full device, a pipe nobody reads), or [None] when the
    process starts with standard output closed. *)
Inductive stream : Type := Stream_open | Stream_broken | Stream_none.

(** The state of the process.  A name of a directory denotes a file, and
    several names may denote one file (hard links; a symbolic link is a
    name for the file it leads to).  An open file object has a file and a
    position in it.  [pending] is the text in the buffer of [sys.stdout],
    [delivered] the text that left the process. *)
Record state : Type := {
  st_argv : list str;
  st_environ : gmap string string;
  st_cwd : string;
  names : gmap (string * string) nat;
  inodes : gmap nat (list byte);
  objects : gmap nat (nat * nat);
  st_stdout : stream;
  pending : str;
  delivered : str;
  st_clock : nat;
  st_trace : list event
}.

Definition sys (A : Type) : Type := state -> outcome A * state.

Definition sys_bind {A B} (m : sys A) (k : A -> sys B) : sys B := fun st =>
  match m st with
  | (Ret a, st') => k a st'
  | (Raise e, st') => (Raise e, st')
  end.

#[global] Instance sys_mret : MRet sys := fun A a st => (Ret a, st).
#[global] Instance sys_mbind : MBind sys := fun A B k m => sys_bind m k.

(** [st] after a step: new names, files, file objects and buffer, one call
    more or not, and the events of the step. *)
Definition update (st : state) (nm : gmap (string * string) nat)
    (ino : gmap nat (list byte)) (objs : gmap nat (nat * nat))
    (pend : str) (n : nat) (evs : list event) : state :=
  {| st_argv := st_argv st; st_environ := st_environ st; st_cwd := st_cwd st;
     names := nm; inodes := ino; objects := objs;
     st_stdout := st_stdout st; pending := pend; delivered := delivered st;
     st_clock := n; st_trace := st_trace st ++ evs |}.

(** The interpreter reads two variables of the environment at startup:
    with [PYTHONWARNDEFAULTENCODING] set to a non-empty text it warns
    when a file is opened in text mode with no [encoding], and with
    [PYTHONWARNINGS=error] a warning is an exception.  Other spellings of
    the filter are not modelled. *)
Definition warns_as_error (env : gmap string string) : bool :=
  match env !! "PYTHONWARNDEFAULTENCODING", env !! "PYTHONWARNINGS" with
  | Some (String _ _), Some filter => String.eqb filter "error"
  | _, _ => false
  end.

(** The file a name denotes, a new one when the name is not there. *)
Definition target (st : state) (p : string * string) : nat :=
  match names st !! p with
  | Some i => i
  | None => fresh (dom (inodes st) ∪ map_img (names st) : gset nat)
  end.

(** [open(name, 'w')]: the file the name denotes is emptied, or a new file
    gets the name; the file object starts at position 0.  When the
    default-encoding warning is an exception it is raised once the file is
    emptied, and the file is released again. *)
Definition sys_open_w (h : host) (name : str) : sys nat := fun st =>
  match fault_at h (st_clock st) with
  | Some ft =>
      (Raise (OSError (errno ft)),
       update st (names st) (inodes st) (objects st) (pending st)
         (S (st_clock st)) [])
  | None =>
      let p := (st_cwd st, name) in
      let i := target st p in
      let f := fresh (dom (objects st)) in
      if warns_as_error (st_environ st) then
        (Raise EncodingWarning,
         update st (<[p := i]> (names st)) (<[i := []]> (inodes st))
           (objects st) (pending st) (S (st_clock st)) [EOpen f p; EClose f])
      else
        (Ret f,
         update st (<[p := i]> (names st)) (<[i := []]> (inodes st))
           (<[f := (i, 0)]> (objects st)) (pending st) (S (st_clock st))
           [EOpen f p])
  end.

(** [data] written over [old] from position [off] on; a position beyond
    the end leaves a gap of zero bytes. *)
Definition write_at (off : nat) (data old : list byte) : list byte :=
  take off old ++ replicate (off - length old) x00 ++ data
  ++ drop (off + length data) old.

(** [f.write(s)] writes at the position of the file object and moves the
    position by the bytes written. *)
Definition sys_write (h : host) (f : nat) (s : str) : sys nat := fun st =>
  match objects st !! f with
  | None => (Raise ValueError, st)
  | Some (i, off) =>
      match text_to_bytes h s with
      | None => (Raise UnicodeEncodeError, st)
      | Some data =>
          let put d :=
            update st (names st)
              (<[i := write_at off d (default [] (inodes st !! i))]> (inodes st))
              (<[f := (i, off + length d)]> (objects st)) (pending st)
              (S (st_clock st)) [EWrite f d] in
          match fault_at h (st_clock st) with
          | None => (Ret (String.length s), put data)
          | Some ft => (Raise (OSError (errno ft)), put (take (accepted ft) data))
          end
      end
  end.

Definition sys_close (h : host) (f : nat) : sys unit := fun st =>
  match objects st !! f with
  | None => (Ret tt, st)
  | Some _ =>
      let st' :=
        update st (names st) (inodes st) (delete f (objects st)) (pending st)
          (S (st_clock st)) [EClose f] in
      match fault_at h (st_clock st) with
      | None => (Ret tt, st')
      | Some ft => (Raise (OSError (errno ft)), st')
      end
  end.

Definition sys_with {A} (h : host) (opening : sys nat) (body : nat -> sys A)
    : sys A := fun st =>
  match opening st with
  | (Raise e, st1) => (Raise e, st1)
  | (Ret f, st1) =>
      match body f st1 with
      | (Ret a, st2) =>
          match sys_close h f st2 with
          | (Ret _, st3) => (Ret a, st3)
          | (Raise e, st3) => (Raise e, st3)
          end
      | (Raise e, st2) =>
          match sys_close h f st2 with
          | (Ret _, st3) => (Raise e, st3)
          | (Raise e', st3) => (Raise e', st3)
          end
      end
  end.

(** [print(s)]: nothing when [sys.stdout] is [None]; otherwise the line
    goes to the buffer of [sys.stdout]. *)
Definition sys_print (s : str) : sys unit := fun st =>
  match st_stdout st with
  | Stream_none => (Ret tt, st)
  | _ =>
      (Ret tt,
       update st (names st) (inodes st) (objects st)
         (pending st +:+ s +:+ String LF EmptyString) (st_clock st) [EPrint s])
  end.

(** The script, statement by statement as [create_icon]. *)
Definition sys_with_block (h : host) : sys nat :=
  sys_with h (sys_open_w h icon_name) (fun f => sys_write h f svg_content).

Definition create_icon_sys (h : host) : sys unit :=
  sys_with_block h ;; sys_print confirmation.

(** The end of the process: the interpreter flushes [sys.stdout].  When the
    flush of a non-empty buffer fails the text is lost and the status is
    120, whatever the script did; otherwise the status is the script's. *)
Definition at_exit (r : outcome unit) (st : state) : nat * state :=
  match st_stdout st, pending st with
  | Stream_broken, String _ _ =>
      (120,
       update st (names st) (inodes st) (objects st) EmptyString
         (st_clock st) [])
  | _, _ =>
      (exit_status r,
       {| st_argv := st_argv st; st_environ := st_environ st;
          st_cwd := st_cwd st; names := names st; inodes := inodes st;
          objects := objects st; st_stdout := st_stdout st;
          pending := EmptyString;
          delivered := delivered st +:+ pending st;
          st_clock := st_clock st; st_trace := st_trace st |})
  end.

Definition process (h : host) (st : state) : nat * state :=
  let (r, st') := create_icon_sys h st in at_exit r st'.

(** What a name shows: the content of the file it denotes. *)
Definition content (st : state) (p : string * string) : option (list byte) :=
  match names st !! p with
  | Some i => inodes st !! i
  | None => None
  end.

Definition sys_icon_path (st : state) : string * string :=
  (st_cwd st, icon_name).
Definition sys_icon_file (st : state) : nat := fresh (dom (objects st)).
Definition icon_inode (st : state) : nat := target st (sys_icon_path st).

(** The lines the script gives to [print] that reach the buffer. *)
Definition said_line (st : state) : list event :=
  match st_stdout st with
  | Stream_none => []
  | _ => [EPrint confirmation]
  end.

(** The state after the script: [touched] is what the file of
    [appicon.svg] holds when the run got as far as opening it. *)
Definition state_after (st : state) (touched : option (list byte))
    (said : bool) (calls : nat) (evs : list event) : state :=
  update st
    (match touched with
     | Some _ => <[sys_icon_path st := icon_inode st]> (names st)
     | None => names st
     end)
    (match touched with
     | Some d => <[icon_inode st := d]> (inodes st)
     | None => inodes st
     end)
    (objects st)
    (if said then pending st +:+ confirmation +:+ String LF EmptyString
     else pending st)
    (calls + st_clock st) evs.

(** The runs of the script in the process, by the answers of the operating
    system, the warning setting and [sys.stdout]. *)
Definition create_icon_sys_cases (h : host) (st : state)
    : outcome unit * state :=
  let p := sys_icon_path st in
  let f := sys_icon_file st in
  let data := icon_bytes (linesep h) in
  match fault_at h (st_clock st) with
  | Some ft => (Raise (OSError (errno ft)), state_after st None false 1 [])
  | None =>
      if warns_as_error (st_environ st) then
        (Raise EncodingWarning,
         state_after st (Some []) false 1 [EOpen f p; EClose f])
      else
        match fault_at h (S (st_clock st)) with
        | Some ft =>
            (closing (Raise (OSError (errno ft)))
               (fault_at h (S (S (st_clock st)))),
             state_after st (Some (take (accepted ft) data)) false 3
               [EOpen f p; EWrite f (take (accepted ft) data); EClose f])
        | None =>
            match fault_at h (S (S (st_clock st))) with
            | Some ft =>
                (Raise (OSError (errno ft)),
                 state_after st (Some data) false 3
                   [EOpen f p; EWrite f data; EClose f])
            | None =>
                (Ret tt,
                 state_after st (Some data)
                   (match st_stdout st with Stream_none => false | _ => true end)
                   3 ([EOpen f p; EWrite f data; EClose f] ++ said_line st))
            end
        end
  end.

(** [st] with other arguments, environment, files, names, buffered and
    delivered text and earlier events. *)
Definition other_inputs (st : state) (args : list str)
    (env : gmap string string) (nm : gmap (string * string) nat)
    (ino : gmap nat (list byte)) (pend out : str) (t : list event) : state :=
  {| st_argv := args; st_environ := env; st_cwd := st_cwd st;
     names := nm; inodes := ino; objects := objects st;
     st_stdout := st_stdout st; pending := pend; delivered := out;
     st_clock := st_clock st; st_trace := t |}.

(** The events the script adds to the trace of the process. *)
Definition sys_events (h : host) (st : state) : list event :=
  drop (length (st_trace st)) (st_trace (snd (create_icon_sys h st))).


Definition plain_state : state :=
  {| st_argv := ["create_icon.py"]; st_environ := ∅; st_cwd := "/work";
     names := <[("/work", "appicon.svg") := 4]>
                (<[("/work", "notes.txt") := 5]> ∅);
     inodes := <[4 := [x6f; x6c; x64]]> (<[5 := [x68; x69]]> ∅);
     objects := ∅; st_stdout := Stream_open; pending := EmptyString;
     delivered := EmptyString; st_clock := 0; st_trace := [] |}.

(** The environment that makes the default-encoding warning an error. *)
Definition strict_environ : gmap string string :=
  <["PYTHONWARNDEFAULTENCODING" := "1"]> (<["PYTHONWARNINGS" := "error"]> ∅).

(** [plain_state] under that environment, with standard output on a full
    device, and with standard output closed. *)
Definition strict_state : state :=
  other_inputs plain_state (st_argv plain_state) strict_environ
    (names plain_state) (inodes plain_state) EmptyString EmptyString [].

Definition full_stdout_state : state :=
  {| st_argv := ["create_icon.py"]; st_environ := ∅; st_cwd := "/work";
     names := names plain_state; inodes := inodes plain_state;
     objects := ∅; st_stdout := Stream_broken; pending := EmptyString;
     delivered := EmptyString; st_clock := 0; st_trace := [] |}.

Definition no_stdout_state : state :=
  {| st_argv := ["create_icon.py"]; st_environ := ∅; st_cwd := "/work";
     names := names plain_state; inodes := inodes plain_state;
     objects := ∅; st_stdout := Stream_none; pending := EmptyString;
     delivered := EmptyString; st_clock := 0; st_trace := [] |}.

(** A process with a file object at position 1 of a file of three
    bytes. *)
Definition writing_state : state :=
  {| st_argv := ["create_icon.py"]; st_environ := ∅; st_cwd := "/work";
     names := <[("/work", "notes.txt") := 5]> ∅;
     inodes := <[5 := [x68; x69; x21]]> ∅;
     objects := <[3 := (5, 1)]> ∅; st_stdout := Stream_open;
     pending := EmptyString; delivered := EmptyString;
     st_clock := 0; st_trace := [] |}.

(** * Lemmas on the text layer *)

Lemma encode_str_ascii (enc : codec) (s : str) :
  ascii_text s = true -> encode_str enc s = Some (list_byte_of_string s).
Proof.
  induction s as [|c s IH]; intros Hs; [done|].
  cbn [ascii_text] in Hs. apply andb_prop in Hs as [Hc Hs].
  cbn [encode_str]. unfold encode_char. rewrite Hc, (IH Hs). done.
Qed.

Lemma icon_text_ascii (n : newline) :
  ascii_text (translate_newlines (linesep_str n) svg_content) = true.
Proof. destruct n; vm_compute; reflexivity. Qed.

(** The literal is ASCII: every host has bytes for it, the same under
    every encoding. *)
Lemma text_to_bytes_icon (h : host) :
  text_to_bytes h svg_content = Some (icon_bytes (linesep h)).
Proof.
  unfold text_to_bytes, icon_bytes. apply encode_str_ascii, icon_text_ascii.
Qed.

Lemma icon_bytes_utf8 (n : newline) :
  encode_str utf_8 (translate_newlines (linesep_str n) svg_content)
  = Some (icon_bytes n).
Proof. apply encode_str_ascii, icon_text_ascii. Qed.

Lemma icon_bytes_LF : svg_utf8 = Some (icon_bytes NL_LF).
Proof. vm_compute. reflexivity. Qed.

(** * Lemmas on the runs *)

Lemma icon_file_fresh (w : world) : handles w !! icon_file w = None.
Proof.
  unfold icon_file. apply (not_elem_of_dom (D := gset nat)). apply is_fresh.
Qed.

(** Scoped acquisition: whatever the body does with the file object it is
    given, as long as it opens and closes nothing itself, the [with]
    statement leaves open what was open before it. *)
Lemma with_file_releases {A} (h : host) (name : str) (body : nat -> py A)
    (w : world) :
  (forall f w1, handles (snd (body f w1)) = handles w1) ->
  handles (snd (with_file h (open_w h name) body w)) = handles w.
Proof.
  intros Hbody. unfold with_file, open_w.
  destruct (fault_at h (clock w)) as [ft|]; [done|].
  set (f := fresh (dom (handles w))).
  assert (Hf : handles w !! f = None) by apply icon_file_fresh.
  match goal with |- context [body f ?w1] =>
    pose proof (Hbody f w1) as Hw1; destruct (body f w1) as [[a|e] w2] end;
    cbn [snd handles] in Hw1; unfold file_close; rewrite Hw1, lookup_insert_eq;
    destruct (fault_at h (clock w2)); cbn [snd handles];
    by rewrite delete_insert_id.
Qed.

(** Case analysis on the three answers of the operating system. *)
Ltac answers h w :=
  destruct (fault_at h (clock w)) as [?ft|] eqn:?Hopen;
  [| destruct (fault_at h (S (clock w))) as [?ft|] eqn:?Hwrite;
     destruct (fault_at h (S (S (clock w)))) as [?ft|] eqn:?Hclose ].

Lemma with_block_eq (h : host) (w : world) :
  with_block h w = with_block_cases h w.
Proof.
  pose proof (icon_file_fresh w) as Hf.
  unfold with_block, with_block_cases, with_file, open_w.
  fold (icon_file w). fold (icon_path w).
  destruct (fault_at h (clock w)) as [ft|] eqn:Hopen.
  { unfold world_after. cbn. by rewrite app_nil_r. }
  unfold file_write, file_close. cbn [handles clock files].
  rewrite lookup_insert_eq, text_to_bytes_icon.
  destruct (fault_at h (S (clock w))) as [ft|] eqn:Hwrite;
    unfold append_file; cbn [handles clock files cwd stdout trace argv environ];
    rewrite lookup_insert_eq;
    destruct (fault_at h (S (S (clock w)))) as [ft'|] eqn:Hclose;
    unfold world_after, closing; cbn [fst snd];
    rewrite lookup_insert_eq, insert_insert_eq, delete_insert_id by done;
    cbn; rewrite <- !app_assoc; done.
Qed.

Lemma create_icon_eq (h : host) (w : world) :
  create_icon h w = create_icon_cases h w.
Proof.
  unfold create_icon, mbind, py_mbind, py_bind. rewrite with_block_eq.
  unfold with_block_cases, create_icon_cases. answers h w; try done.
  unfold print, world_after. cbn. by rewrite <- !app_assoc.
Qed.

(** A run that ends normally met no refusal and wrote the whole text. *)
Lemma create_icon_ok (h : host) (w : world) :
  fst (create_icon h w) = Ret tt ->
  create_icon h w =
    (Ret tt,
     world_after w (Some (icon_bytes (linesep h))) true 3
       [EOpen (icon_file w) (icon_path w);
        EWrite (icon_file w) (icon_bytes (linesep h));
        EClose (icon_file w); EPrint confirmation]).
Proof. rewrite create_icon_eq. unfold create_icon_cases. answers h w; done. Qed.

Lemma create_icon_cwd (h : host) (w : world) :
  cwd (snd (create_icon h w)) = cwd w.
Proof. rewrite create_icon_eq. unfold create_icon_cases. answers h w; done. Qed.

Lemma icon_text_shape (n : newline) :
  let text := file_text (icon_bytes n) in
  root_element text = Some ("svg", svg_attributes)
  /\ contains ("linearGradient id=" +:+ q "grad") text = true
  /\ contains "#0088cc" text = true
  /\ contains "#00a8ff" text = true
  /\ contains path_data text = true.
Proof. destruct n; vm_compute; repeat split; reflexivity. Qed.

Lemma icon_bytes_end (n : newline) :
  icon_bytes n
  = take (length (icon_bytes n) - 6) (icon_bytes n) ++ list_byte_of_string "</svg>"
  /\ last (icon_bytes n) = Some x3e.
Proof. destruct n; vm_compute; split; reflexivity. Qed.

(** * Lemmas on the process *)

Lemma write_at_start (data : list byte) : write_at 0 data [] = data.
Proof. unfold write_at. cbn. by rewrite drop_nil, app_nil_r. Qed.

Lemma sys_icon_file_fresh (st : state) : objects st !! sys_icon_file st = None.
Proof.
  unfold sys_icon_file. apply (not_elem_of_dom (D := gset nat)). apply is_fresh.
Qed.


Lemma create_icon_sys_eq (h : host) (st : state) :
  create_icon_sys h st = create_icon_sys_cases h st.
Proof.
  pose proof (sys_icon_file_fresh st) as Hf.
  unfold create_icon_sys, mbind, sys_mbind, sys_bind, sys_with_block, sys_with,
    sys_open_w, create_icon_sys_cases.
  fold (sys_icon_file st). fold (sys_icon_path st). fold (icon_inode st).
  destruct (fault_at h (st_clock st)) as [ft|] eqn:Hopen; [reflexivity|].
  destruct (warns_as_error (st_environ st)) eqn:Hwarn; [reflexivity|].
  unfold sys_write, sys_close. cbn [update objects inodes st_clock].
  rewrite lookup_insert_eq, text_to_bytes_icon.
  destruct (fault_at h (S (st_clock st))) as [ft|] eqn:Hwrite;
    cbn [update objects inodes st_clock names pending st_stdout];
    rewrite !lookup_insert_eq;
    destruct (fault_at h (S (S (st_clock st)))) as [ft'|] eqn:Hclose;
    unfold state_after, closing, sys_print, update, said_line;
    cbn [update objects inodes st_clock names pending st_stdout st_trace
         st_argv st_environ st_cwd delivered default fst snd];
    rewrite ?write_at_start, ?insert_insert_eq, ?delete_insert_id by done;
    try destruct (st_stdout st);
    cbn [Nat.add app]; rewrite <- ?app_assoc, ?app_nil_r; reflexivity.
Qed.

(** The content of [appicon.svg] once the opening went through. *)
Lemma content_after (st : state) (d : list byte) (said : bool) (n : nat)
    (evs : list event) :
  content (state_after st (Some d) said n evs) (sys_icon_path st) = Some d.
Proof.
  unfold content, state_after, update. cbn [names inodes].
  by rewrite !lookup_insert_eq.
Qed.

(** The script in the process and the script in the world of the first
    part end alike and leave the same bytes under the name [appicon.svg]
    and the same text for standard output, when the interpreter's warning
    is no error and [sys.stdout] is there: the first part is the process
    seen through its names. *)
Lemma layers_agree (h : host) (w : world) (st : state) :
  st_clock st = clock w ->
  st_cwd st = cwd w ->
  warns_as_error (st_environ st) = false ->
  fst (create_icon_sys h st) = fst (create_icon h w)
  /\ (fault_at h (clock w) = None ->
      content (snd (create_icon_sys h st)) (sys_icon_path st)
      = files (snd (create_icon h w)) !! icon_path w)
  /\ (st_stdout st <> Stream_none ->
      pending st = stdout w ->
      pending (snd (create_icon_sys h st)) = stdout (snd (create_icon h w))).
Proof.
  intros Hclock Hcwd Hwarn.
  rewrite create_icon_sys_eq, create_icon_eq.
  unfold create_icon_sys_cases, create_icon_cases. rewrite Hclock, Hwarn.
  answers h w; cbn [fst snd]; (split; [done|]);
    (split; [intros; try done; rewrite content_after;
             cbn [world_after files]; by rewrite lookup_insert_eq|]);
    intros Hout Hpend; unfold state_after, update;
    cbn [pending world_after stdout]; try done.
  rewrite Hpend. by destruct (st_stdout st).
Qed.

(** * The claims *)

(** ** C1: the file after a run *)

(** C1, amended.  For every earlier state of the files, a run that ends
    normally leaves all files as they were except [appicon.svg] of the
    current directory, which is created or replaced and holds the text of
    the literal with each line feed written as the host's line separator.
    These bytes are the UTF-8 encoding of that text; where the line
    separator is a line feed they are the UTF-8 encoding of the literal
    itself, nothing added. *)
Theorem icon_written (h : host) (w : world) :
  fst (create_icon h w) = Ret tt ->
  files (snd (create_icon h w))
  = <[icon_path w := icon_bytes (linesep h)]> (files w)
  /\ encode_str utf_8 (translate_newlines (linesep_str (linesep h)) svg_content)
     = Some (icon_bytes (linesep h))
  /\ (linesep h = NL_LF -> svg_utf8 = Some (icon_bytes (linesep h))).
Proof.
  intros Hok. rewrite (create_icon_ok h w Hok).
  split; [done|]. split; [apply icon_bytes_utf8|].
  intros ->. apply icon_bytes_LF.
Qed.

Lemma icon_written_witness :
  fst (create_icon posix used_world) = Ret tt /\
  files used_world !! icon_path used_world = Some [x6f; x6c; x64] /\
  files (snd (create_icon posix used_world))
  = <[icon_path used_world := icon_bytes NL_LF]> (files used_world) /\
  svg_utf8 = Some (icon_bytes NL_LF).
Proof.
  assert (Hok : fst (create_icon posix used_world) = Ret tt)
    by (vm_compute; reflexivity).
  split; [exact Hok|]. split; [vm_compute; reflexivity|].
  destruct (icon_written posix used_world Hok) as (Hfiles & _ & Hlf).
  split; [exact Hfiles | apply Hlf; reflexivity].
Defined.

(** C1 as stated fails where [os.linesep] is not a line feed: on Windows
    the run ends normally and the file holds a carriage return before each
    line feed, 580 bytes where the UTF-8 encoding of the literal has 570. *)
Lemma icon_written_counterexample :
  fst (create_icon windows clean_world) = Ret tt /\
  files (snd (create_icon windows clean_world)) !! icon_path clean_world
  = Some (icon_bytes NL_CRLF) /\
  svg_utf8 = Some (icon_bytes NL_LF) /\
  length (icon_bytes NL_CRLF) = 580 /\
  length (icon_bytes NL_LF) = 570 /\
  files (snd (create_icon windows clean_world)) !! icon_path clean_world
  <> svg_utf8.
Proof.
  repeat split; try (vm_compute; reflexivity).
  intros H. vm_compute in H. discriminate H.
Qed.

(** ** C2: determinism *)



(** ** C3: idempotence *)

(** C3.  When a run that ended normally is followed by a second run that
    ends normally, the files are after the second run what they were after
    the first. *)
Theorem idempotent (h : host) (w : world) :
  fst (create_icon h w) = Ret tt ->
  fst (create_icon h (snd (create_icon h w))) = Ret tt ->
  files (snd (create_icon h (snd (create_icon h w))))
  = files (snd (create_icon h w)).
Proof.
  intros Hok1 Hok2. rewrite (create_icon_ok h _ Hok2).
  cbn [snd world_after files]. unfold icon_path at 1. rewrite create_icon_cwd.
  rewrite (create_icon_ok h w Hok1).
  cbn [snd world_after files]. by rewrite insert_insert_eq.
Qed.

Lemma idempotent_witness :
  fst (create_icon posix used_world) = Ret tt /\
  fst (create_icon posix (snd (create_icon posix used_world))) = Ret tt /\
  files (snd (create_icon posix (snd (create_icon posix used_world))))
  = files (snd (create_icon posix used_world)).
Proof.
  assert (H1 : fst (create_icon posix used_world) = Ret tt)
    by (vm_compute; reflexivity).
  assert (H2 : fst (create_icon posix (snd (create_icon posix used_world))) = Ret tt)
    by (vm_compute; reflexivity).
  split; [exact H1|]. split; [exact H2|].
  exact (idempotent posix used_world H1 H2).
Defined.

(** ** C4: the confirmation line *)



(** ** C5: what the file's text holds *)

(** C5.  After a run that ends normally the text of [appicon.svg] has the
    root element [svg] with the attributes [width="1024"], [height="1024"],
    [viewBox="0 0 1024 1024"] and the namespace
    [xmlns="http://www.w3.org/2000/svg"], and it contains
    [linearGradient id="grad"], both stop colours and the path data. *)
Theorem icon_content (h : host) (w : world) :
  fst (create_icon h w) = Ret tt ->
  exists data,
    files (snd (create_icon h w)) !! icon_path w = Some data /\
    let text := file_text data in
    root_element text
    = Some ("svg",
            [("width", "1024"); ("height", "1024");
             ("viewBox", "0 0 1024 1024");
             ("xmlns", "http://www.w3.org/2000/svg")])
    /\ contains ("linearGradient id=" +:+ q "grad") text = true
    /\ contains "#0088cc" text = true
    /\ contains "#00a8ff" text = true
    /\ contains "M512 256 L768 512 L512 768 L512 600 L256 600 L256 424 L512 424 Z"
         text = true.
Proof.
  intros Hok. rewrite (create_icon_ok h w Hok).
  exists (icon_bytes (linesep h)). cbn [snd world_after files].
  rewrite lookup_insert_eq. split; [done|]. apply icon_text_shape.
Qed.

Lemma icon_content_witness :
  fst (create_icon windows used_world) = Ret tt /\
  exists data,
    files (snd (create_icon windows used_world)) !! icon_path used_world = Some data /\
    root_element (file_text data) = Some ("svg", svg_attributes) /\
    contains path_data (file_text data) = true.
Proof.
  assert (Hok : fst (create_icon windows used_world) = Ret tt)
    by (vm_compute; reflexivity).
  split; [exact Hok|].
  destruct (icon_content windows used_world Hok)
    as (data & Hdata & Hroot & _ & _ & _ & Hpath).
  exists data. split; [exact Hdata|]. split; [exact Hroot | exact Hpath].
Defined.

(** ** C6: failure *)

Lemma process_status (h : host) (st : state) :
  process h st
  = at_exit (fst (create_icon_sys h st)) (snd (create_icon_sys h st)).
Proof. unfold process. by destruct (create_icon_sys h st). Qed.

(** A failed script never leaves status 0. *)
Lemma at_exit_raise (e : exn) (st : state) : fst (at_exit (Raise e) st) <> 0.
Proof.
  unfold at_exit. destruct (st_stdout st); [done| |done].
  by destruct (pending st).
Qed.

Lemma append_not_empty (a b : str) :
  b <> EmptyString -> exists c s, a +:+ b = String c s.
Proof.
  intros Hb. destruct a as [|c a]; [|by exists c, (a +:+ b)].
  destruct b as [|c b]; [done|]. by exists c, b.
Qed.

(** C6, amended.  When the operating system refuses the opening, the
    writing or the closing of the file, the script ends with an [OSError]
    nobody handles, the process exits with a status that is not 0, and the
    confirmation is not printed.  This is not the only way to fail.  When
    the interpreter makes the default-encoding warning an error, [open]
    raises [EncodingWarning] once the file is emptied, and the status is
    not 0.  When nothing is refused and nothing warned, the script ends
    normally with the whole text in the file, and the status is 0 when
    standard output takes the line or is closed, but 120 when the flush of
    standard output fails at the end. *)
Theorem process_failure_modes (h : host) (st : state) :
  (is_Some (fault_at h (st_clock st))
   \/ (warns_as_error (st_environ st) = false
       /\ (is_Some (fault_at h (S (st_clock st)))
           \/ is_Some (fault_at h (S (S (st_clock st)))))) ->
   exists e,
     fst (create_icon_sys h st) = Raise (OSError e)
     /\ fst (process h st) <> 0
     /\ pending (snd (create_icon_sys h st)) = pending st
     /\ printed (sys_events h st) = [])
  /\
  (fault_at h (st_clock st) = None ->
   warns_as_error (st_environ st) = true ->
   fst (create_icon_sys h st) = Raise EncodingWarning
   /\ fst (process h st) <> 0
   /\ content (snd (create_icon_sys h st)) (sys_icon_path st) = Some []
   /\ pending (snd (create_icon_sys h st)) = pending st
   /\ printed (sys_events h st) = [])
  /\
  (fault_at h (st_clock st) = None ->
   fault_at h (S (st_clock st)) = None ->
   fault_at h (S (S (st_clock st))) = None ->
   warns_as_error (st_environ st) = false ->
   fst (create_icon_sys h st) = Ret tt
   /\ content (snd (create_icon_sys h st)) (sys_icon_path st)
      = Some (icon_bytes (linesep h))
   /\ match st_stdout st with
      | Stream_open =>
          fst (process h st) = 0
          /\ delivered (snd (process h st))
             = delivered st
               +:+ (pending st +:+ confirmation +:+ String LF EmptyString)
      | Stream_none =>
          fst (process h st) = 0
          /\ delivered (snd (process h st)) = delivered st +:+ pending st
      | Stream_broken =>
          fst (process h st) = 120
          /\ delivered (snd (process h st)) = delivered st
      end).
Proof.
  rewrite process_status. unfold sys_events.
  rewrite create_icon_sys_eq. unfold create_icon_sys_cases.
  split; [|split].
  - intros Hrefused.
    destruct (fault_at h (st_clock st)) as [f0|].
    { exists (errno f0). cbn [fst snd]. split; [done|].
      split; [apply at_exit_raise|].
      cbn [state_after update pending st_trace]. by rewrite drop_app_length. }
    destruct Hrefused as [[? ?]|[-> Hlater]]; [done|].
    destruct (fault_at h (S (st_clock st))) as [f1|];
      destruct (fault_at h (S (S (st_clock st)))) as [f2|];
      cbn [fst snd closing state_after update pending st_trace];
      rewrite ?drop_app_length;
      try (eexists; split; [reflexivity|];
           split; [apply at_exit_raise | done]).
    destruct Hlater as [[? ?]|[? ?]]; done.
  - intros -> ->. cbn [fst snd]. split; [done|].
    split; [apply at_exit_raise|]. split; [apply content_after|].
    cbn [state_after update pending st_trace]. by rewrite drop_app_length.
  - intros -> -> -> ->. cbn [fst snd]. split; [done|].
    split; [apply content_after|].
    unfold at_exit. cbn [state_after update st_stdout pending delivered].
    destruct (st_stdout st); cbn [fst snd delivered exit_status].
    + split; [|done].
      by destruct (pending st +:+ confirmation +:+ String LF EmptyString).
    + destruct (append_not_empty (pending st)
                  (confirmation +:+ String LF EmptyString)) as (c & s & ->);
        [done|]. done.
    + split; [|done]. by destruct (pending st).
Qed.

Lemma process_failure_modes_witness :
  fst (create_icon_sys posix_readonly plain_state) = Raise (OSError EACCES) /\
  (exists e,
     fst (create_icon_sys posix_disk_full plain_state) = Raise (OSError e)
     /\ fst (process posix_disk_full plain_state) <> 0
     /\ printed (sys_events posix_disk_full plain_state) = []) /\
  fst (process posix plain_state) = 0 /\
  delivered (snd (process posix plain_state))
  = confirmation +:+ String LF EmptyString /\
  fst (process posix no_stdout_state) = 0 /\
  delivered (snd (process posix no_stdout_state)) = EmptyString.
Proof.
  destruct (process_failure_modes posix_disk_full plain_state) as (Hos & _ & _).
  destruct Hos as (e & He & Hstatus & _ & Hprint).
  { right. split; [reflexivity|]. left. vm_compute. by eexists. }
  destruct (process_failure_modes posix plain_state) as (_ & _ & Hok).
  destruct (Hok eq_refl eq_refl eq_refl eq_refl) as (_ & _ & Hopen).
  destruct (process_failure_modes posix no_stdout_state) as (_ & _ & Hnone).
  destruct (Hnone eq_refl eq_refl eq_refl eq_refl) as (_ & _ & Hclosed).
  split; [vm_compute; reflexivity|]. split; [by exists e|].
  split; [apply Hopen|]. split; [apply Hopen|]. split; apply Hclosed.
Defined.

(** C6 as stated fails: no call on the file is refused, yet the run fails.
    With the default-encoding warning made an error, [open] raises
    [EncodingWarning], the status is 1 and the earlier file is left empty;
    with standard output on a full device the script ends normally and
    writes the whole file, and the process exits with status 120, the
    confirmation lost. *)
Lemma process_failure_modes_counterexample :
  fault_at posix 0 = None /\ fault_at posix 1 = None /\ fault_at posix 2 = None /\
  content strict_state (sys_icon_path strict_state) = Some [x6f; x6c; x64] /\
  fst (create_icon_sys posix strict_state) = Raise EncodingWarning /\
  fst (process posix strict_state) = 1 /\
  content (snd (process posix strict_state)) (sys_icon_path strict_state)
  = Some [] /\
  fst (create_icon_sys posix full_stdout_state) = Ret tt /\
  content (snd (process posix full_stdout_state)) (sys_icon_path full_stdout_state)
  = Some (icon_bytes NL_LF) /\
  fst (process posix full_stdout_state) = 120 /\
  delivered (snd (process posix full_stdout_state)) = EmptyString.
Proof. vm_compute. repeat split; reflexivity. Qed.

(** ** C7: the file object is released *)

(** C7.  Whatever the operating system refuses, the open file objects are
    after the run the ones open before it: the file object of
    [appicon.svg] is not among them, and a run that opened it closed it
    after the writing, complete or not, and before any printing. *)
Theorem handle_released (h : host) (w : world) :
  handles (snd (create_icon h w)) = handles w
  /\ handles (snd (create_icon h w)) !! icon_file w = None
  /\ (script_events h w = []
      \/ exists data tail,
           script_events h w
           = [EOpen (icon_file w) (icon_path w); EWrite (icon_file w) data;
              EClose (icon_file w)] ++ tail).
Proof.
  pose proof (icon_file_fresh w) as Hf.
  unfold script_events. rewrite create_icon_eq. unfold create_icon_cases.
  answers h w; cbn [snd world_after handles trace]; rewrite drop_app_length;
    (split; [done|]); (split; [done|]);
    first [ by left | right; by eexists _, [] | right; by eexists _, [_] ].
Qed.

(** The writing fails after 100 bytes: the file object is released. *)
Example disk_full_releases_file_object :
  fst (create_icon posix_disk_full clean_world) = Raise (OSError ENOSPC) /\
  files (snd (create_icon posix_disk_full clean_world)) !! icon_path clean_world
  = Some (take 100 (icon_bytes NL_LF)) /\
  handles (snd (create_icon posix_disk_full clean_world)) = handles clean_world.
Proof. vm_compute. repeat split; reflexivity. Qed.

(** ** C8: what is read, what is changed *)







(** ** C9: the confirmation comes last *)

(** C9.  The events of a run are, in this order, the opening, the writing,
    the closing and the printing, or a beginning of that sequence that has
    the closing whenever it has the opening.  A run that prints has them
    all: [print] runs in the world the [with] statement left, where the
    file holds the whole text, its file object is released and nothing has
    been printed yet. *)
Theorem print_after_close (h : host) (w : world) :
  let f := icon_file w in
  let p := icon_path w in
  let data := icon_bytes (linesep h) in
  (script_events h w = []
   \/ (exists k, script_events h w = [EOpen f p; EWrite f (take k data); EClose f])
   \/ script_events h w
      = [EOpen f p; EWrite f data; EClose f; EPrint confirmation])
  /\
  (printed (script_events h w) <> [] ->
   script_events h w = [EOpen f p; EWrite f data; EClose f; EPrint confirmation]
   /\ fst (with_block h w) = Ret (String.length svg_content)
   /\ create_icon h w = print confirmation (snd (with_block h w))
   /\ files (snd (with_block h w)) !! p = Some data
   /\ handles (snd (with_block h w)) !! f = None
   /\ stdout (snd (with_block h w)) = stdout w).
Proof.
  pose proof (icon_file_fresh w) as Hf.
  cbv zeta. unfold script_events.
  rewrite create_icon_eq, with_block_eq. unfold create_icon_cases, with_block_cases.
  answers h w; cbn [fst snd closing world_after trace files handles stdout];
    rewrite drop_app_length.
  - split; [by left | done].
  - split; [right; left; by eexists | done].
  - split; [right; left; by eexists | done].
  - split; [right; left; exists (length (icon_bytes (linesep h)));
            by rewrite firstn_all | done].
  - split; [by right; right|]. intros _.
    rewrite lookup_insert_eq. repeat split; try done.
    unfold print, world_after. cbn. by rewrite <- !app_assoc.
Qed.

Lemma print_after_close_witness :
  printed (script_events posix used_world) <> [] /\
  fst (with_block posix used_world) = Ret 570 /\
  create_icon posix used_world
  = print confirmation (snd (with_block posix used_world)) /\
  files (snd (with_block posix used_world)) !! icon_path used_world
  = Some (icon_bytes NL_LF) /\
  handles (snd (with_block posix used_world)) !! icon_file used_world = None.
Proof.
  assert (Hp : printed (script_events posix used_world) <> [])
    by (vm_compute; discriminate).
  destruct (print_after_close posix used_world) as [_ Hprint].
  destruct (Hprint Hp) as (_ & Hret & Hmain & Hfile & Hhandle & _).
  split; [exact Hp|]. split; [exact Hret|]. split; [exact Hmain|].
  split; [exact Hfile | exact Hhandle].
Defined.

(** ** C10: the end of the file and the end of the line *)

(** C10.  After a run that ends normally the bytes of [appicon.svg] end
    with [</svg>]: the last byte is [>], neither a line feed nor a carriage
    return.  What the run adds to standard output is the confirmation
    followed by one line feed. *)
Theorem file_and_line_endings (h : host) (w : world) :
  fst (create_icon h w) = Ret tt ->
  (exists front,
     files (snd (create_icon h w)) !! icon_path w
     = Some (front ++ list_byte_of_string "</svg>")
     /\ last (front ++ list_byte_of_string "</svg>") = Some x3e)
  /\ x3e <> byte_of_ascii LF /\ x3e <> byte_of_ascii CR
  /\ stdout (snd (create_icon h w))
     = stdout w +:+ "Icon SVG created" +:+ String LF EmptyString.
Proof.
  intros Hok. rewrite (create_icon_ok h w Hok).
  cbn [snd world_after files stdout]. rewrite lookup_insert_eq.
  destruct (icon_bytes_end (linesep h)) as [Hend Hlast].
  split; [|done].
  exists (take (length (icon_bytes (linesep h)) - 6) (icon_bytes (linesep h))).
  by rewrite <- Hend.
Qed.

Lemma file_and_line_endings_witness :
  fst (create_icon posix clean_world) = Ret tt /\
  (exists front,
     files (snd (create_icon posix clean_world)) !! icon_path clean_world
     = Some (front ++ list_byte_of_string "</svg>")) /\
  stdout (snd (create_icon posix clean_world))
  = "Icon SVG created" +:+ String LF EmptyString.
Proof.
  assert (Hok : fst (create_icon posix clean_world) = Ret tt)
    by (vm_compute; reflexivity).
  split; [exact Hok|].
  destruct (file_and_line_endings posix clean_world Hok)
    as ((front & Hfront & _) & _ & _ & Hout).
  split; [by exists front | exact Hout].
Defined.

(** * Further properties of the script *)


(** The files after any run: untouched, or with [appicon.svg] replaced by
    a beginning of the text. *)
Lemma create_icon_files (h : host) (w : world) :
  files (snd (create_icon h w)) = files w
  \/ exists k,
       files (snd (create_icon h w))
       = <[icon_path w := take k (icon_bytes (linesep h))]> (files w).
Proof.
  rewrite create_icon_eq. unfold create_icon_cases.
  answers h w; cbn [snd world_after files];
    first [ by left | right; by eexists
          | right; exists (length (icon_bytes (linesep h)));
            by rewrite firstn_all ].
Qed.

(** ** X1: a failed run is not atomic *)

(** X1.  A refused opening leaves every file as it was, the earlier
    [appicon.svg] included.  Once the opening went through the earlier
    content is gone: when the writing is refused the file holds only the
    bytes the system took, a beginning of the text and possibly nothing,
    and the run fails; when only the closing is refused the run fails
    although the file holds the whole text. *)
Theorem failed_run_file (h : host) (w : world) (ft : fault) :
  (fault_at h (clock w) = Some ft ->
   files (snd (create_icon h w)) = files w)
  /\
  (fault_at h (clock w) = None ->
   fault_at h (S (clock w)) = Some ft ->
   fst (create_icon h w) <> Ret tt
   /\ files (snd (create_icon h w))
      = <[icon_path w := take (accepted ft) (icon_bytes (linesep h))]> (files w)
   /\ length (take (accepted ft) (icon_bytes (linesep h)))
      = Nat.min (accepted ft) (length (icon_bytes (linesep h))))
  /\
  (fault_at h (clock w) = None ->
   fault_at h (S (clock w)) = None ->
   fault_at h (S (S (clock w))) = Some ft ->
   fst (create_icon h w) <> Ret tt
   /\ files (snd (create_icon h w))
      = <[icon_path w := icon_bytes (linesep h)]> (files w)).
Proof.
  rewrite create_icon_eq. unfold create_icon_cases. repeat split.
  - by intros ->.
  - revert H H0. intros -> ->. by destruct (fault_at h (S (S (clock w)))).
  - revert H H0. by intros -> ->.
  - apply length_take.
  - revert H H0 H1. by intros -> -> ->.
  - revert H H0 H1. by intros -> -> ->.
Qed.

Lemma failed_run_file_witness :
  files old_icon_world !! icon_path old_icon_world = Some [x6f; x6c; x64] /\
  files (snd (create_icon posix_readonly old_icon_world)) = files old_icon_world /\
  fst (create_icon posix_disk_full old_icon_world) <> Ret tt /\
  files (snd (create_icon posix_disk_full old_icon_world)) !! icon_path old_icon_world
  = Some (take 100 (icon_bytes NL_LF)) /\
  fst (create_icon posix_close_error old_icon_world) <> Ret tt /\
  files (snd (create_icon posix_close_error old_icon_world)) !! icon_path old_icon_world
  = Some (icon_bytes NL_LF).
Proof.
  destruct (failed_run_file posix_readonly old_icon_world
              {| errno := EACCES; accepted := 0 |}) as (Hopen & _ & _).
  destruct (failed_run_file posix_disk_full old_icon_world
              {| errno := ENOSPC; accepted := 100 |}) as (_ & Hwrite & _).
  destruct (failed_run_file posix_close_error old_icon_world
              {| errno := EIO; accepted := 0 |}) as (_ & _ & Hclose).
  destruct (Hwrite eq_refl eq_refl) as (Hw1 & Hw2 & _).
  destruct (Hclose eq_refl eq_refl eq_refl) as (Hc1 & Hc2).
  split; [vm_compute; reflexivity|]. split; [exact (Hopen eq_refl)|].
  split; [exact Hw1|]. split; [rewrite Hw2; apply lookup_insert_eq|].
  split; [exact Hc1|]. rewrite Hc2. apply lookup_insert_eq.
Defined.

(** ** X2: the last run that ends normally decides the content *)

(** X2.  Whatever an earlier run did, on whatever host and however it
    ended, a following run that ends normally leaves the files a single
    normal run from the start would leave: the earlier files with
    [appicon.svg] holding the text for the second host.  Running the
    script again repairs a failed run. *)
Theorem last_run_wins (h1 h2 : host) (w : world) :
  fst (create_icon h2 (snd (create_icon h1 w))) = Ret tt ->
  files (snd (create_icon h2 (snd (create_icon h1 w))))
  = <[icon_path w := icon_bytes (linesep h2)]> (files w).
Proof.
  intros Hok. rewrite (create_icon_ok h2 _ Hok).
  cbn [snd world_after files]. unfold icon_path at 1. rewrite create_icon_cwd.
  fold (icon_path w).
  destruct (create_icon_files h1 w) as [-> | [k ->]]; [done|].
  by rewrite insert_insert_eq.
Qed.

Lemma last_run_wins_witness :
  fst (create_icon posix_disk_full old_icon_world) = Raise (OSError ENOSPC) /\
  fst (create_icon posix (snd (create_icon posix_disk_full old_icon_world)))
  = Ret tt /\
  files (snd (create_icon posix (snd (create_icon posix_disk_full old_icon_world))))
  = <[icon_path old_icon_world := icon_bytes NL_LF]> (files old_icon_world) /\
  files (snd (create_icon posix (snd (create_icon windows old_icon_world))))
  = <[icon_path old_icon_world := icon_bytes NL_LF]> (files old_icon_world).
Proof.
  assert (H1 : fst (create_icon posix
                      (snd (create_icon posix_disk_full old_icon_world))) = Ret tt)
    by (vm_compute; reflexivity).
  assert (H2 : fst (create_icon posix
                      (snd (create_icon windows old_icon_world))) = Ret tt)
    by (vm_compute; reflexivity).
  split; [vm_compute; reflexivity|]. split; [exact H1|].
  split; [exact (last_run_wins posix_disk_full posix old_icon_world H1)|].
  exact (last_run_wins windows posix old_icon_world H2).
Defined.

(** ** X3: many runs *)





(** ** X4: which error the process ends with *)

(** X4.  The error number of the [OSError] the script ends with is the one
    the operating system gave: the opening's when the opening is refused;
    otherwise the closing's when the closing is refused, also when the
    writing was refused before it; otherwise the writing's. *)
Theorem reported_error (h : host) (w : world) (ft : fault) :
  (fault_at h (clock w) = Some ft ->
   fst (create_icon h w) = Raise (OSError (errno ft)))
  /\
  (fault_at h (clock w) = None ->
   fault_at h (S (S (clock w))) = Some ft ->
   fst (create_icon h w) = Raise (OSError (errno ft)))
  /\
  (fault_at h (clock w) = None ->
   fault_at h (S (clock w)) = Some ft ->
   fault_at h (S (S (clock w))) = None ->
   fst (create_icon h w) = Raise (OSError (errno ft))).
Proof.
  rewrite create_icon_eq. unfold create_icon_cases. repeat split.
  - by intros ->.
  - intros -> Hclose. destruct (fault_at h (S (clock w))); by rewrite Hclose.
  - by intros -> -> ->.
Qed.

Lemma reported_error_witness :
  fst (create_icon posix_readonly clean_world) = Raise (OSError EACCES) /\
  fault_at posix_write_close_error 1 = Some {| errno := ENOSPC; accepted := 100 |} /\
  fst (create_icon posix_write_close_error clean_world) = Raise (OSError EIO) /\
  fst (create_icon posix_disk_full clean_world) = Raise (OSError ENOSPC).
Proof.
  destruct (reported_error posix_readonly clean_world
              {| errno := EACCES; accepted := 0 |}) as (Hopen & _ & _).
  destruct (reported_error posix_write_close_error clean_world
              {| errno := EIO; accepted := 0 |}) as (_ & Hclose & _).
  destruct (reported_error posix_disk_full clean_world
              {| errno := ENOSPC; accepted := 100 |}) as (_ & _ & Hwrite).
  split; [exact (Hopen eq_refl)|]. split; [reflexivity|].
  split; [exact (Hclose eq_refl eq_refl)|].
  exact (Hwrite eq_refl eq_refl eq_refl).
Defined.

(** ** X5: the [with] statement releases the file object for any body *)

(** X5.  For any file name and any body that leaves the open file objects
    alone or closes the one it was given, the [with] statement leaves open
    exactly what was open before it, whether the opening is refused, the
    body returns or raises, or the closing reports an error. *)
Theorem with_file_scope {A} (h : host) (name : str) (body : nat -> py A)
    (w : world) :
  (forall f w1,
     handles (snd (body f w1)) = handles w1
     \/ handles (snd (body f w1)) = delete f (handles w1)) ->
  handles (snd (with_file h (open_w h name) body w)) = handles w.
Proof.
  intros Hbody. unfold with_file, open_w.
  destruct (fault_at h (clock w)) as [ft|]; [done|].
  set (f := fresh (dom (handles w))).
  assert (Hf : handles w !! f = None) by apply icon_file_fresh.
  match goal with |- context [body f ?w1] =>
    pose proof (Hbody f w1) as Hw1; destruct (body f w1) as [[a|e] w2] end;
    cbn [snd handles] in Hw1; unfold file_close;
    (destruct Hw1 as [Hw1|Hw1];
     [ rewrite Hw1, lookup_insert_eq; destruct (fault_at h (clock w2));
       cbn [snd handles]; by rewrite delete_insert_id
     | assert (Hw2 : handles w2 = handles w)
         by (by rewrite Hw1, delete_insert_id);
       by rewrite Hw2, Hf ]).
Qed.

Lemma with_file_scope_witness :
  handles (snd (with_file posix_close_error (open_w posix_close_error "notes.txt")
                  raising_body used_world)) = handles used_world /\
  fst (with_file posix_close_error (open_w posix_close_error "notes.txt")
         raising_body used_world) = Raise ValueError /\
  handles (snd (with_file posix (open_w posix "notes.txt")
                  (closing_body posix) used_world)) = handles used_world.
Proof.
  split; [|split; [vm_compute; reflexivity|]].
  - apply (with_file_scope posix_close_error "notes.txt" raising_body used_world).
    intros f w1. left. reflexivity.
  - apply (with_file_scope posix "notes.txt" (closing_body posix) used_world).
    intros f w1. unfold closing_body, file_close.
    destruct (handles w1 !! f) eqn:Hl; [right | left]; reflexivity.
Defined.

(** ** X6: the file object after the [with] statement *)

Lemma with_block_handles (h : host) (w : world) :
  handles (snd (with_block h w)) = handles w.
Proof.
  rewrite with_block_eq. unfold with_block_cases. answers h w; done.
Qed.

(** X6.  When the opening goes through, [f] is the new file object, and
    after the [with] statement it is closed however the statement ended:
    writing to it raises [ValueError] and changes nothing, closing it
    again does nothing. *)
Theorem closed_after_with (h : host) (w : world) (s : str) :
  fault_at h (clock w) = None ->
  fst (open_w h icon_name w) = Ret (icon_file w)
  /\ file_write h (icon_file w) s (snd (with_block h w))
     = (Raise ValueError, snd (with_block h w))
  /\ file_close h (icon_file w) (snd (with_block h w))
     = (Ret tt, snd (with_block h w)).
Proof.
  intros Hopen.
  assert (Hclosed : handles (snd (with_block h w)) !! icon_file w = None)
    by (rewrite with_block_handles; apply icon_file_fresh).
  split; [unfold open_w; by rewrite Hopen|].
  unfold file_write, file_close. by rewrite Hclosed.
Qed.

Lemma closed_after_with_witness :
  fault_at posix_disk_full (clock clean_world) = None /\
  fst (with_block posix_disk_full clean_world) = Raise (OSError ENOSPC) /\
  fst (file_write posix_disk_full (icon_file clean_world) "more"
         (snd (with_block posix_disk_full clean_world))) = Raise ValueError /\
  files (snd (file_write posix_disk_full (icon_file clean_world) "more"
                (snd (with_block posix_disk_full clean_world))))
  = files (snd (with_block posix_disk_full clean_world)).
Proof.
  destruct (closed_after_with posix_disk_full clean_world "more" eq_refl)
    as (_ & Hwrite & _).
  split; [reflexivity|]. split; [vm_compute; reflexivity|].
  rewrite Hwrite. split; reflexivity.
Defined.

(** ** X7: what a write returns and what it costs *)

Lemma length_list_byte_of_string (s : str) :
  length (list_byte_of_string s) = String.length s.
Proof.
  unfold list_byte_of_string. rewrite length_map.
  induction s as [|c s IH]; [done|]. cbn. by rewrite IH.
Qed.

Lemma translate_newlines_LF (s : str) :
  translate_newlines (linesep_str NL_LF) s = s.
Proof.
  induction s as [|c s IH]; [done|]. cbn [translate_newlines]. rewrite IH.
  destruct (Ascii.eqb c LF) eqn:Hc; [|done].
  apply Ascii.eqb_eq in Hc as ->. reflexivity.
Qed.

Lemma length_translate_newlines_CRLF (s : str) :
  String.length (translate_newlines (linesep_str NL_CRLF) s)
  = String.length s + count_lf s.
Proof.
  induction s as [|c s IH]; [done|].
  cbn [translate_newlines count_lf String.length].
  destruct (Ascii.eqb c LF).
  - change (S (S (String.length (translate_newlines (linesep_str NL_CRLF) s)))
            = S (String.length s + (1 + count_lf s))).
    rewrite IH. lia.
  - cbn [String.length]. rewrite IH. lia.
Qed.

Lemma ascii_text_translate (n : newline) (s : str) :
  ascii_text s = true ->
  ascii_text (translate_newlines (linesep_str n) s) = true.
Proof.
  induction s as [|c s IH]; [done|]. cbn [ascii_text translate_newlines].
  intros [Hc Hs]%andb_prop. specialize (IH Hs).
  destruct (Ascii.eqb c LF).
  - destruct n; cbn [linesep_str];
      [ change (ascii_text (String LF (translate_newlines (linesep_str NL_LF) s)) = true)
      | change (ascii_text
                  (String CR (String LF (translate_newlines (linesep_str NL_CRLF) s)))
                = true) ];
      cbn [ascii_text]; by rewrite IH.
  - cbn [ascii_text]. by rewrite Hc, IH.
Qed.

(** X7.  A write of ASCII text that goes through puts the bytes of the
    text at the position of the file object, over what the file held
    there, and moves the position by the number of bytes; every other
    file is left alone.  It returns the number of characters: where the
    line separator is CR LF there is one byte more for each line feed, so
    the value returned is not the distance the position moved. *)
Theorem write_at_position (h : host) (f i off : nat) (old : list byte)
    (s : str) (st : state) :
  objects st !! f = Some (i, off) ->
  inodes st !! i = Some old ->
  off <= length old ->
  ascii_text s = true ->
  fault_at h (st_clock st) = None ->
  exists data,
    fst (sys_write h f s st) = Ret (String.length s)
    /\ inodes (snd (sys_write h f s st)) !! i
       = Some (take off old ++ data ++ drop (off + length data) old)
    /\ objects (snd (sys_write h f s st)) !! f = Some (i, off + length data)
    /\ length data
       = String.length s
         + match linesep h with NL_LF => 0 | NL_CRLF => count_lf s end
    /\ (linesep h = NL_LF -> data = list_byte_of_string s)
    /\ (forall j, j <> i ->
          inodes (snd (sys_write h f s st)) !! j = inodes st !! j).
Proof.
  intros Hf Hold Hoff Hs Hcall.
  exists (list_byte_of_string (translate_newlines (linesep_str (linesep h)) s)).
  unfold sys_write, text_to_bytes. rewrite Hf, Hcall.
  rewrite (encode_str_ascii _ _ (ascii_text_translate (linesep h) s Hs)).
  cbn [fst snd update inodes objects]. rewrite Hold.
  change (default [] (Some old)) with old.
  split; [done|]. split.
  { rewrite lookup_insert_eq. unfold write_at.
    replace (off - length old) with 0 by lia. reflexivity. }
  split; [by rewrite lookup_insert_eq|]. split.
  { rewrite length_list_byte_of_string. destruct (linesep h).
    - rewrite translate_newlines_LF. lia.
    - apply length_translate_newlines_CRLF. }
  split; [intros ->; by rewrite translate_newlines_LF|].
  intros j Hj. by rewrite lookup_insert_ne.
Qed.

Lemma write_at_position_witness :
  objects writing_state !! 3 = Some (5, 1) /\
  inodes writing_state !! 5 = Some [x68; x69; x21] /\
  1 <= length [x68; x69; x21] /\
  ascii_text ("a" +:+ String LF "b") = true /\
  exists data,
    fst (sys_write windows 3 ("a" +:+ String LF "b") writing_state) = Ret 3
    /\ inodes (snd (sys_write windows 3 ("a" +:+ String LF "b") writing_state))
         !! 5
       = Some ([x68] ++ data ++ [])
    /\ objects (snd (sys_write windows 3 ("a" +:+ String LF "b") writing_state))
         !! 3
       = Some (5, 5)
    /\ length data = 4.
Proof.
  assert (Hf : objects writing_state !! 3 = Some (5, 1)) by reflexivity.
  assert (Hold : inodes writing_state !! 5 = Some [x68; x69; x21]) by reflexivity.
  assert (Hoff : 1 <= length [x68; x69; x21]) by (cbn; lia).
  assert (Hs : ascii_text ("a" +:+ String LF "b") = true) by reflexivity.
  split; [exact Hf|]. split; [exact Hold|]. split; [exact Hoff|].
  split; [exact Hs|].
  destruct (write_at_position windows 3 5 1 [x68; x69; x21]
              ("a" +:+ String LF "b") writing_state Hf Hold Hoff Hs eq_refl)
    as (data & Hret & Hino & Hobj & Hlen & _).
  exists data. cbn [count_lf] in Hlen.
  assert (Hlen4 : length data = 4) by exact Hlen.
  rewrite Hlen4 in Hino, Hobj.
  split; [exact Hret|]. split; [exact Hino|]. split; [exact Hobj | exact Hlen4].
Defined.
